(** * oneshot-starter: the auth wrappers, the home page and the Docker
    bootstrap script

    A shallow embedding of
    - [src/lib/supabase/auth.ts]: six async functions over [supabase.auth],
    - [src/app/page.tsx]: the [Home] component,
    - the PocketBase Docker set-up script (bash, [set -e]).

    The SDK, the [createClient] factory of [./client] and the Docker command
    line are outside these sources: they are parameters of the sections
    below, and every general theorem holds for all of their behaviours. *)

From Stdlib Require Import String Ascii List ZArith Lia Bool.
Import ListNotations.
Local Open Scope string_scope.

(* ===================================================================== *)
(** ** JavaScript values and completions *)
(* ===================================================================== *)

Module JS.

(** The values the wrappers touch: primitives and plain objects. An object
    is its list of own properties, in insertion order. *)
#[warnings="-register-all"] Inductive value : Type :=
| Undefined
| Null
| Bool (b : bool)
| Num (n : Z)
| Str (s : string)
| Obj (fields : list (string * value)).

Definition object : Type := list (string * value).

(** [o.k], also what the pattern [{ k } = o] binds: [undefined] when the
    property is absent. *)
Fixpoint prop (o : object) (k : string) : value :=
  match o with
  | [] => Undefined
  | (k', v) :: o' => if String.eqb k k' then v else prop o' k
  end.

(** [k in o]. *)
Definition has_prop (o : object) (k : string) : bool :=
  existsb (fun kv => String.eqb k (fst kv)) o.

Definition keys (o : object) : list string := map fst o.

(** How a call or an [await] ends: with a value, or with a thrown value
    (a rejected promise, once awaited). *)
Inductive completion (A : Type) : Type :=
| Normal (a : A)
| Throw (e : value).
Arguments Normal {A} a.
Arguments Throw {A} e.

(** What evaluating an undeclared identifier throws. *)
Definition ReferenceError (name : string) : value :=
  Obj [("name", Str "ReferenceError");
       ("message", Str (name ++ " is not defined"))].

(** Computations over a state [S] that may throw. *)
Definition M (S A : Type) : Type := S -> completion A * S.

Definition ret {S A} (a : A) : M S A := fun s => (Normal a, s).

Definition bind {S A B} (m : M S A) (k : A -> M S B) : M S B :=
  fun s =>
    match m s with
    | (Normal a, s') => k a s'
    | (Throw e, s') => (Throw e, s')
    end.

End JS.

Declare Scope js_scope.
Delimit Scope js_scope with js.
Notation "x <- m ;; k" := (JS.bind m (fun x => k))
  (at level 61, m at next level, right associativity) : js_scope.

(* ===================================================================== *)
(** ** src/app/page.tsx *)
(* ===================================================================== *)

Module Page.
Import JS.

(** A JSX element: a host tag (["div"], ["a"]) or a reference to an imported
    component ([Button], [Card]), its props and its children. JSX does not
    call the component: [Home] returns the tree as written. *)
Inductive tag : Type :=
| Host (name : string)
| Component (name : string).

Inductive attr : Type :=
| AttrStr (s : string)
| AttrTrue.

#[warnings="-register-all"] Inductive element : Type :=
| Text (s : string)
| Element (t : tag) (props : list (string * attr)) (children : list element).

Definition el (name : string) (className : string) (children : list element)
  : element :=
  Element (Host name) [("className", AttrStr className)] children.

Definition cmp (name : string) (children : list element) : element :=
  Element (Component name) [] children.

(** One [<Card>] of the grid: the three cards differ in their texts only. *)
Definition card (title description body : string) : element :=
  cmp "Card"
    [cmp "CardHeader"
       [cmp "CardTitle" [Text title];
        cmp "CardDescription" [Text description]];
     cmp "CardContent"
       [el "p" "text-sm text-muted-foreground" [Text body]]].

Definition Home_tree : element :=
  el "div"
    "flex min-h-screen flex-col items-center justify-center bg-background p-8"
    [el "main" "flex max-w-4xl flex-col items-center gap-8"
       [el "div" "text-center"
          [el "h1" "text-4xl font-bold tracking-tight"
             [Text "Next.js + Supabase Starter"];
           el "p" "mt-4 text-lg text-muted-foreground"
             [Text "A modern starter template with authentication ready to go"]];
        el "div" "grid gap-6 md:grid-cols-3"
          [card "Next.js 15"
             "App Router, Server Components, and Turbopack"
             "Built on the latest Next.js with TypeScript support";
           card "Supabase Auth"
             "Email, OAuth, and magic links"
             "Pre-configured authentication with session management";
           card "shadcn/ui"
             "Beautiful, accessible components"
             "Customizable components built with Radix and Tailwind"];
        el "div" "flex gap-4"
          [Element (Component "Button") [("asChild", AttrTrue)]
             [Element (Host "a") [("href", AttrStr "/login")]
                [Text "Get Started"]];
           Element (Component "Button")
             [("variant", AttrStr "outline"); ("asChild", AttrTrue)]
             [Element (Host "a")
                [("href", AttrStr "https://github.com");
                 ("target", AttrStr "_blank");
                 ("rel", AttrStr "noopener noreferrer")]
                [Text "View on GitHub"]]]]].

(** [export default function Home()]: no parameter, no hook, one [return].
    It is placed in the monad of the wrappers, over any state, so that its
    effects (none) can be stated. *)
Definition Home {S : Type} : M S element := ret Home_tree.

Definition attr_of (k : string) (props : list (string * attr)) : option attr :=
  option_map snd (find (fun p => String.eqb k (fst p)) props).

(** The [href]s of the [<a>] elements of a tree, in document order. *)
Fixpoint hrefs (e : element) : list string :=
  match e with
  | Text _ => []
  | Element t props children =>
      let here :=
        match t, attr_of "href" props with
        | Host "a", Some (AttrStr h) => [h]
        | _, _ => []
        end in
      here ++ flat_map hrefs children
  end.

End Page.

(* ===================================================================== *)
(** ** src/lib/supabase/auth.ts *)
(* ===================================================================== *)

Module Auth.
Import JS.
Local Open Scope js_scope.

(** The methods of [supabase.auth] that the module calls. *)
Module sdk.
Inductive method : Type :=
| signInWithPassword
| signUp
| signOut
| signInWithOAuth
| resetPasswordForEmail
| updateUser.
End sdk.

(** The parameter type ["google" | "github" | "discord"]. *)
Inductive provider : Type := google | github | discord.

Definition provider_name (p : provider) : string :=
  match p with
  | google => "google"
  | github => "github"
  | discord => "discord"
  end.

(** The global [window]: declared in a browser, undeclared on a server. *)
Record Location : Type := { origin : string }.
Record Window : Type := { location : Location }.
Record globals : Type := { window : option Window }.

(** What a wrapper is seen to do from outside. *)
Inductive event (Client : Type) : Type :=
| CreateClient
| AuthCall (c : Client) (m : sdk.method) (args : list value).
Arguments CreateClient {Client}.
Arguments AuthCall {Client} c m args.

(** Everything behind the SDK (its client internals, the network, the
    hosted backend) is the [world]. *)
Record state (World Client : Type) : Type :=
  { globalThis : globals; world : World; trace : list (event Client) }.
Arguments globalThis {World Client} s.
Arguments world {World Client} s.
Arguments trace {World Client} s.

Definition is_auth_call {Client} (e : event Client) : bool :=
  match e with AuthCall _ _ _ => true | CreateClient => false end.

(** The number of SDK calls in a trace: each is one request to the hosted
    backend. *)
Definition network_calls {Client} (t : list (event Client)) : nat :=
  length (filter is_auth_call t).

Section Wrappers.

Variable World : Type.
Variable Client : Type.

(** [createClient] of [./client]: not in this module. *)
Variable createClient : World -> completion Client * World.

(** [await client.auth.m(...args)]: resolves to an object (the wrappers
    take it apart with an object pattern) or rejects. *)
Variable auth :
  Client -> sdk.method -> list value -> World -> completion object * World.

Definition record (e : event Client) (w : World) (s : state World Client)
  : state World Client :=
  {| globalThis := globalThis s; world := w; trace := trace s ++ [e] |}.

(** [createClient()] *)
Definition call_createClient : M (state World Client) Client :=
  fun s =>
    let (r, w) := createClient (world s) in (r, record CreateClient w s).

(** [await supabase.auth.m(...args)] *)
Definition await_auth (c : Client) (m : sdk.method) (args : list value)
  : M (state World Client) object :=
  fun s =>
    let (r, w) := auth c m args (world s) in
    (r, record (AuthCall c m args) w s).

(** [window.location.origin] *)
Definition window_location_origin : M (state World Client) string :=
  fun s =>
    match window (globalThis s) with
    | Some w => (Normal (origin (location w)), s)
    | None => (Throw (ReferenceError "window"), s)
    end.

Definition signInWithEmail (email password : string)
  : M (state World Client) value :=
  supabase <- call_createClient ;;
  r <- await_auth supabase sdk.signInWithPassword
         [Obj [("email", Str email); ("password", Str password)]] ;;
  let data := prop r "data" in
  let error := prop r "error" in
  ret (Obj [("data", data); ("error", error)]).

Definition signUpWithEmail (email password : string)
  : M (state World Client) value :=
  supabase <- call_createClient ;;
  r <- await_auth supabase sdk.signUp
         [Obj [("email", Str email); ("password", Str password)]] ;;
  let data := prop r "data" in
  let error := prop r "error" in
  ret (Obj [("data", data); ("error", error)]).

Definition signOut : M (state World Client) value :=
  supabase <- call_createClient ;;
  r <- await_auth supabase sdk.signOut [] ;;
  let error := prop r "error" in
  ret (Obj [("error", error)]).

Definition signInWithOAuth (p : provider) : M (state World Client) value :=
  supabase <- call_createClient ;;
  o <- window_location_origin ;;
  r <- await_auth supabase sdk.signInWithOAuth
         [Obj [("provider", Str (provider_name p));
               ("options",
                Obj [("redirectTo", Str (o ++ "/auth/callback"))])]] ;;
  let data := prop r "data" in
  let error := prop r "error" in
  ret (Obj [("data", data); ("error", error)]).

Definition resetPassword (email : string) : M (state World Client) value :=
  supabase <- call_createClient ;;
  o <- window_location_origin ;;
  r <- await_auth supabase sdk.resetPasswordForEmail
         [Str email;
          Obj [("redirectTo", Str (o ++ "/auth/reset-password"))]] ;;
  let data := prop r "data" in
  let error := prop r "error" in
  ret (Obj [("data", data); ("error", error)]).

Definition updatePassword (password : string)
  : M (state World Client) value :=
  supabase <- call_createClient ;;
  r <- await_auth supabase sdk.updateUser
         [Obj [("password", Str password)]] ;;
  let data := prop r "data" in
  let error := prop r "error" in
  ret (Obj [("data", data); ("error", error)]).

End Wrappers.

Arguments signInWithEmail {World Client} createClient auth email password s.
Arguments signUpWithEmail {World Client} createClient auth email password s.
Arguments signOut {World Client} createClient auth s.
Arguments signInWithOAuth {World Client} createClient auth p s.
Arguments resetPassword {World Client} createClient auth email s.
Arguments updatePassword {World Client} createClient auth password s.

(** One call of one of the six exported functions, with its arguments. *)
Inductive invocation : Type :=
| call_signInWithEmail (email password : string)
| call_signUpWithEmail (email password : string)
| call_signOut
| call_signInWithOAuth (p : provider)
| call_resetPassword (email : string)
| call_updatePassword (password : string).

Definition invoke {World Client}
  (createClient : World -> completion Client * World)
  (auth : Client -> sdk.method -> list value -> World
          -> completion object * World)
  (i : invocation) : M (state World Client) value :=
  match i with
  | call_signInWithEmail e p => signInWithEmail createClient auth e p
  | call_signUpWithEmail e p => signUpWithEmail createClient auth e p
  | call_signOut => signOut createClient auth
  | call_signInWithOAuth p => signInWithOAuth createClient auth p
  | call_resetPassword e => resetPassword createClient auth e
  | call_updatePassword p => updatePassword createClient auth p
  end.

(** A session: calls made one after the other, whatever each returned. *)
Fixpoint invoke_all {World Client}
  (createClient : World -> completion Client * World)
  (auth : Client -> sdk.method -> list value -> World
          -> completion object * World)
  (calls : list invocation) (s : state World Client) : state World Client :=
  match calls with
  | [] => s
  | i :: rest =>
      invoke_all createClient auth rest (snd (invoke createClient auth i s))
  end.

(** *** The wrappers as the documentation describes them

    These three definitions do not come from the code: they say, wrapper by
    wrapper, which SDK method is its counterpart, which arguments the
    caller wrote, and what is handed to the SDK and handed back. The
    theorems compare the code above with them. *)

Definition sdk_method (i : invocation) : sdk.method :=
  match i with
  | call_signInWithEmail _ _ => sdk.signInWithPassword
  | call_signUpWithEmail _ _ => sdk.signUp
  | call_signOut => sdk.signOut
  | call_signInWithOAuth _ => sdk.signInWithOAuth
  | call_resetPassword _ => sdk.resetPasswordForEmail
  | call_updatePassword _ => sdk.updateUser
  end.

Definition caller_args (i : invocation) : list value :=
  match i with
  | call_signInWithEmail e p => [Str e; Str p]
  | call_signUpWithEmail e p => [Str e; Str p]
  | call_signOut => []
  | call_signInWithOAuth p => [Str (provider_name p)]
  | call_resetPassword e => [Str e]
  | call_updatePassword p => [Str p]
  end.

(** The arguments handed to the SDK, given [window.location.origin]. *)
Definition forwarded_args (o : string) (i : invocation) : list value :=
  match i with
  | call_signInWithEmail e p => [Obj [("email", Str e); ("password", Str p)]]
  | call_signUpWithEmail e p => [Obj [("email", Str e); ("password", Str p)]]
  | call_signOut => []
  | call_signInWithOAuth p =>
      [Obj [("provider", Str (provider_name p));
            ("options", Obj [("redirectTo", Str (o ++ "/auth/callback"))])]]
  | call_resetPassword e =>
      [Str e; Obj [("redirectTo", Str (o ++ "/auth/reset-password"))]]
  | call_updatePassword p => [Obj [("password", Str p)]]
  end.

Definition reads_window (i : invocation) : bool :=
  match i with
  | call_signInWithOAuth _ | call_resetPassword _ => true
  | _ => false
  end.

(** The request a wrapper makes under the globals [g]: its arguments, or
    the [ReferenceError] of reading an undeclared [window]. *)
Definition request (g : globals) (i : invocation) : completion (list value) :=
  match window g with
  | Some w => Normal (forwarded_args (origin (location w)) i)
  | None =>
      if reads_window i then Throw (ReferenceError "window")
      else Normal (forwarded_args EmptyString i)
  end.

(** The object handed back for the SDK result [r]. *)
Definition reply (i : invocation) (r : object) : value :=
  match i with
  | call_signOut => Obj [("error", prop r "error")]
  | _ => Obj [("data", prop r "data"); ("error", prop r "error")]
  end.

(** The state after a call: the globals as they were, the world [w], and
    the events [t] added to the trace. *)
Definition after {World Client} (s : state World Client) (w : World)
  (t : list (event Client)) : state World Client :=
  {| globalThis := globalThis s; world := w; trace := trace s ++ t |}.

(** The whole of a call, as described: make the client, build the request,
    call the method once, hand back the reply or rethrow. *)
Definition described {World Client}
  (createClient : World -> completion Client * World)
  (auth : Client -> sdk.method -> list value -> World
          -> completion object * World)
  (i : invocation) (s : state World Client)
  : completion value * state World Client :=
  match createClient (world s) with
  | (Throw e, w1) => (Throw e, after s w1 [CreateClient])
  | (Normal c, w1) =>
      match request (globalThis s) i with
      | Throw e => (Throw e, after s w1 [CreateClient])
      | Normal args =>
          let t := [CreateClient; AuthCall c (sdk_method i) args] in
          match auth c (sdk_method i) args w1 with
          | (Normal r, w2) => (Normal (reply i r), after s w2 t)
          | (Throw e, w2) => (Throw e, after s w2 t)
          end
      end
  end.

Definition is_signOut (i : invocation) : bool :=
  match i with call_signOut => true | _ => false end.

(** The number of [createClient()] calls in a trace. *)
Definition client_requests {Client} (t : list (event Client)) : nat :=
  length (filter (fun e => negb (is_auth_call e)) t).


(** The arguments of the SDK calls of a trace. *)
Definition received {Client} (t : list (event Client)) : list (list value) :=
  flat_map (fun e => match e with
                     | AuthCall _ _ args => [args]
                     | CreateClient => []
                     end) t.

End Auth.

(** *** A local backend for concrete runs

    A small stand-in for the hosted service: it knows some accounts, counts
    the requests it served, and can be offline, in which case the SDK's
    [fetch] rejects. *)

Module Fixture.
Import JS Auth.

Record backend : Type :=
  { online : bool; accounts : list (string * string); served : nat }.

Definition serve (w : backend) : backend :=
  {| online := online w; accounts := accounts w; served := S (served w) |}.

Definition createClient (w : backend) : completion string * backend :=
  (Normal "http://127.0.0.1:54321", w).

Definition known (w : backend) (email password : value) : bool :=
  match email, password with
  | Str e, Str p =>
      existsb (fun a => String.eqb e (fst a) && String.eqb p (snd a))
        (accounts w)
  | _, _ => false
  end.

Definition fetch_failed : value :=
  Obj [("name", Str "TypeError"); ("message", Str "fetch failed")].

Definition invalid_credentials : value :=
  Obj [("name", Str "AuthApiError");
       ("message", Str "Invalid login credentials");
       ("status", Num 400)].

Definition auth (c : string) (m : sdk.method) (args : list value)
  (w : backend) : completion object * backend :=
  if negb (online w) then (Throw fetch_failed, w)
  else
    match m, args with
    | sdk.signInWithPassword, [Obj creds] =>
        if known w (prop creds "email") (prop creds "password")
        then (Normal [("data", Obj [("user", prop creds "email")]);
                      ("error", Null)], serve w)
        else (Normal [("data", Obj [("user", Null)]);
                      ("error", invalid_credentials)], serve w)
    | sdk.signOut, _ => (Normal [("error", Null)], serve w)
    | _, _ => (Normal [("data", Obj []); ("error", Null)], serve w)
    end.

Definition service : backend :=
  {| online := true; accounts := [("ada@example.com", "s3cret")];
     served := 0 |}.

Definition outage : backend :=
  {| online := false; accounts := []; served := 0 |}.

Definition browser : globals :=
  {| window := Some {| location := {| origin := "http://localhost:3000" |} |} |}.

Definition server : globals := {| window := None |}.

Definition start (g : globals) (w : backend) : state backend string :=
  {| globalThis := g; world := w; trace := [] |}.

Definition in_browser : state backend string := start browser service.
Definition on_server : state backend string := start server service.

Definition sign_in : invocation :=
  call_signInWithEmail "ada@example.com" "s3cret".

(** A factory without its configuration: the SDK's constructor throws when
    the project URL is missing. *)
Definition missing_url : value :=
  Obj [("name", Str "Error"); ("message", Str "supabaseUrl is required.")].

Definition createClient_unconfigured (w : backend)
  : completion string * backend :=
  (Throw missing_url, w).





(** A short session: sign in, ask for a password reset, sign out. *)
Definition session : list invocation :=
  [sign_in; call_resetPassword "ada@example.com"; call_signOut].

End Fixture.

(* ===================================================================== *)
(** ** The PocketBase Docker set-up script *)
(* ===================================================================== *)

Module Bootstrap.

(** The external commands of the script. [docker_run n p v img args] is
    [docker run -d --name n -p p -v v img args]; the output of [command -v],
    [docker stop] and [docker rm] is sent to [/dev/null]. *)
Inductive command : Type :=
| command_v (name : string)
| docker_ps (all : bool)
| docker_stop (name : string)
| docker_rm (name : string)
| mkdir_p (dir : string)
| docker_run (name publish volume image : string) (args : list string)
| sleep (seconds : nat).

(** What the script is seen to do: the lines it echoes and the commands it
    runs, each with its exit status. *)
Inductive event : Type :=
| Echo (line : string)
| Exec (c : command) (status : Z).

Record shell (Host : Type) : Type := { host : Host; log : list event }.
Arguments host {Host} s.
Arguments log {Host} s.

(** A step either goes on or ends the script with an exit status. *)
Inductive flow (A : Type) : Type :=
| Next (a : A)
| Exited (status : Z).
Arguments Next {A} a.
Arguments Exited {A} status.

Definition Sh (Host A : Type) : Type := shell Host -> flow A * shell Host.

Definition ret {Host A} (a : A) : Sh Host A := fun s => (Next a, s).

Definition bind {Host A B} (m : Sh Host A) (k : A -> Sh Host B) : Sh Host B :=
  fun s =>
    match m s with
    | (Next a, s') => k a s'
    | (Exited n, s') => (Exited n, s')
    end.

(** [exit n] *)
Definition exit {Host A} (n : Z) : Sh Host A := fun s => (Exited n, s).

(** [echo line] *)
Definition echo {Host} (line : string) : Sh Host unit :=
  fun s => (Next tt, {| host := host s; log := log s ++ [Echo line] |}).

(** [grep -q pattern]: status 0 when some line of the input contains the
    pattern (here a word without regular-expression operators). *)
Fixpoint contains (pattern s : string) : bool :=
  if String.prefix pattern s then true
  else match s with
       | EmptyString => false
       | String _ s' => contains pattern s'
       end.

Definition grep_q (pattern : string) (input : list string) : Z :=
  if existsb (contains pattern) input then 0%Z else 1%Z.

Definition CONTAINER_NAME : string := "pocketbase".
Definition PORT : string := "8090".
Definition DATA_DIR : string := "./pb_data".

Definition start_container : command :=
  docker_run CONTAINER_NAME (PORT ++ ":8090") (DATA_DIR ++ ":/pb/pb_data")
    "ghcr.io/pocketbase/pocketbase:latest" ["serve"; "--http=0.0.0.0:8090"].

Definition docker_missing_1 : string :=
  "❌ Docker is not installed. Please install Docker first.".
Definition docker_missing_2 : string :=
  "   Visit: https://docs.docker.com/get-docker/".
Definition not_running : string :=
  "❌ Something went wrong. Check logs with: docker logs " ++ CONTAINER_NAME.
Definition rule : string := "========================================".

Section Script.

Variable Host : Type.

(** The machine: a command changes the host and ends with an exit status
    and the lines it wrote to its standard output. *)
Variable exec : command -> Host -> (Z * list string) * Host.

(** A command whose status the script inspects itself: an [if] test. *)
Definition run (c : command) : Sh Host (Z * list string) :=
  fun s =>
    let (r, h) := exec c (host s) in
    (Next r, {| host := h; log := log s ++ [Exec c (fst r)] |}).

(** A simple command under [set -e]: a nonzero status ends the script with
    that status. *)
Definition errexit (c : command) : Sh Host unit :=
  bind (run c) (fun r => if (fst r =? 0)%Z then ret tt else exit (fst r)).

(** [c | grep -q pattern]: the status of the pipeline is [grep]'s. *)
Definition pipe_grep_q (c : command) (pattern : string) : Sh Host Z :=
  bind (run c) (fun r => ret (grep_q pattern (snd r))).

Definition echo_all (lines : list string) : Sh Host unit :=
  fold_right (fun l k => bind (echo l) (fun _ => k)) (ret tt) lines.

Definition script : Sh Host unit :=
  bind (echo "🚀 Setting up PocketBase with Docker...") (fun _ =>
  bind (echo rule) (fun _ =>
  (* Check if Docker is installed *)
  bind (run (command_v "docker")) (fun found =>
  bind (if negb (fst found =? 0)%Z
        then bind (echo docker_missing_1) (fun _ =>
             bind (echo docker_missing_2) (fun _ =>
             exit 1%Z))
        else ret tt) (fun _ =>
  (* Stop and remove existing container if it exists *)
  bind (pipe_grep_q (docker_ps true) CONTAINER_NAME) (fun listed =>
  bind (if (listed =? 0)%Z
        then bind (echo "⚠️  Stopping existing PocketBase container...")
               (fun _ =>
             bind (errexit (docker_stop CONTAINER_NAME)) (fun _ =>
             errexit (docker_rm CONTAINER_NAME)))
        else ret tt) (fun _ =>
  (* Create data directory *)
  bind (echo ("📁 Creating data directory: " ++ DATA_DIR)) (fun _ =>
  bind (errexit (mkdir_p DATA_DIR)) (fun _ =>
  (* Start new container *)
  bind (echo "🐳 Starting PocketBase container...") (fun _ =>
  bind (errexit start_container) (fun _ =>
  bind (echo_all
          [rule;
           "✅ PocketBase is starting up!";
           EmptyString;
           "🌐 Admin UI: http://localhost:" ++ PORT ++ "/_/";
           "📖 API Docs: http://localhost:" ++ PORT ++ "/api/docs";
           "📁 Data directory: " ++ DATA_DIR;
           EmptyString;
           "To view logs: docker logs -f " ++ CONTAINER_NAME;
           "To stop: docker stop " ++ CONTAINER_NAME;
           EmptyString;
           "⏳ Waiting for PocketBase to be ready..."]) (fun _ =>
  bind (errexit (sleep 3)) (fun _ =>
  (* Check if container is running *)
  bind (pipe_grep_q (docker_ps false) CONTAINER_NAME) (fun up =>
  if (up =? 0)%Z
  then echo "✅ PocketBase is running successfully!"
  else bind (echo not_running) (fun _ => exit 1%Z)))))))))))))).

(** One execution on the host [h]: the exit status and the final shell.
    Running off the end gives the status of the last command, an [echo]. *)
Definition execute (h : Host) : Z * shell Host :=
  match script {| host := h; log := [] |} with
  | (Next _, s) => (0%Z, s)
  | (Exited n, s) => (n, s)
  end.

End Script.

Arguments script {Host} exec s.
Arguments execute {Host} exec h.





(** The commands that run as simple commands under [set -e]; the others
    are the tests of an [if]. *)
Definition under_errexit (c : command) : bool :=
  match c with
  | docker_stop _ | docker_rm _ | mkdir_p _ | docker_run _ _ _ _ _
  | sleep _ => true
  | command_v _ | docker_ps _ => false
  end.

(** [docker ps -a] shows a container under the name [name]: some line of
    its output has the name in it, which is all that [grep -q] looks for. *)
Definition listed {Host} (exec : command -> Host -> (Z * list string) * Host)
  (name : string) (h : Host) : Prop :=
  exists row, In row (snd (fst (exec (docker_ps true) h)))
              /\ contains name row = true.

(** The commands of a log, in the order they ran. *)
Definition commands (l : list event) : list command :=
  flat_map (fun e => match e with
                     | Exec c _ => [c]
                     | Echo _ => []
                     end) l.

(** The two full runs of the script, line by line: with the clean-up of an
    existing container, and without it. *)
Definition with_cleanup : list command :=
  [command_v "docker"; docker_ps true;
   docker_stop CONTAINER_NAME; docker_rm CONTAINER_NAME;
   mkdir_p DATA_DIR; start_container; sleep 3; docker_ps false].

Definition without_cleanup : list command :=
  [command_v "docker"; docker_ps true;
   mkdir_p DATA_DIR; start_container; sleep 3; docker_ps false].



(** An event that is no failure of a simple command. *)
Definition ran_cleanly (e : event) : Prop :=
  match e with
  | Echo _ => True
  | Exec c st => under_errexit c = true -> st = 0%Z
  end.

(** A line with the pattern somewhere in it. *)
Definition has_substring (pattern s : string) : Prop :=
  exists before rest, s = before ++ pattern ++ rest.

(** *** A Docker host for concrete runs *)

Module Sim.

Record container : Type :=
  { name : string; image : string; running : bool }.

Record machine : Type :=
  { docker_on_path : bool; daemon_up : bool; containers : list container }.

Definition header : string :=
  "CONTAINER ID   IMAGE   COMMAND   CREATED   STATUS   PORTS   NAMES".

Definition row (c : container) : string :=
  "0f3c9a1b7d2e   " ++ image c ++ "   /usr/local/bin/pocke...   "
  ++ (if running c then "Up 2 hours" else "Exited (0) 2 hours ago")
  ++ "   " ++ name c.

Definition named (n : string) (c : container) : bool := String.eqb n (name c).

Definition with_containers (m : machine) (cs : list container) : machine :=
  {| docker_on_path := docker_on_path m; daemon_up := daemon_up m;
     containers := cs |}.

Definition stop (c : container) : container :=
  {| name := name c; image := image c; running := false |}.

Definition exec (c : command) (m : machine) : (Z * list string) * machine :=
  match c with
  | command_v n =>
      if String.eqb n "docker" && docker_on_path m
      then ((0%Z, ["/usr/bin/docker"]), m) else ((1%Z, []), m)
  | mkdir_p _ => ((0%Z, []), m)
  | sleep _ => ((0%Z, []), m)
  | _ =>
      if negb (daemon_up m) then ((1%Z, []), m)
      else
        match c with
        | docker_ps all =>
            ((0%Z,
              header :: map row (filter (fun k => all || running k)
                                   (containers m))), m)
        | docker_stop n =>
            if existsb (named n) (containers m)
            then ((0%Z, [n]),
                  with_containers m
                    (map (fun k => if named n k then stop k else k)
                       (containers m)))
            else ((1%Z, []), m)
        | docker_rm n =>
            if existsb (fun k => named n k && negb (running k)) (containers m)
            then ((0%Z, [n]),
                  with_containers m
                    (filter (fun k => negb (named n k)) (containers m)))
            else ((1%Z, []), m)
        | docker_run n _ _ img _ =>
            if existsb (named n) (containers m) then ((125%Z, []), m)
            else ((0%Z, ["0f3c9a1b7d2e"]),
                  with_containers m
                    (containers m
                     ++ [{| name := n; image := img; running := true |}]))
        | _ => ((0%Z, []), m)
        end
  end.

(** A fresh machine; one with a stopped [pocketbase] container left from an
    earlier run; one whose PocketBase container was started by hand under
    another name. *)
Definition fresh : machine :=
  {| docker_on_path := true; daemon_up := true; containers := [] |}.


Definition renamed : machine :=
  {| docker_on_path := true; daemon_up := true;
     containers :=
       [{| name := "pb";
           image := "ghcr.io/pocketbase/pocketbase:latest";
           running := true |}] |}.

Definition no_docker : machine :=
  {| docker_on_path := false; daemon_up := false; containers := [] |}.


End Sim.

End Bootstrap.

(* ===================================================================== *)
(** * Properties of the auth wrappers *)
(* ===================================================================== *)

Section AuthFacts.
Import JS Auth.

Variable World : Type.
Variable Client : Type.
Variable createClient : World -> completion Client * World.
Variable auth :
  Client -> sdk.method -> list value -> World -> completion object * World.

Lemma record_record (s : state World Client) e1 w1 e2 w2 :
  record World Client e2 w2 (record World Client e1 w1 s)
  = after s w2 [e1; e2].
Proof.
  unfold record, after; simpl. now rewrite <- app_assoc.
Qed.

Lemma record_after (s : state World Client) e w :
  record World Client e w s = after s w [e].
Proof. reflexivity. Qed.

(** The code of each wrapper is the described sequence, whatever the
    factory and the SDK do. *)
Lemma invoke_described (i : invocation) (s : state World Client) :
  invoke createClient auth i s = described createClient auth i s.
Proof.
  unfold described, request.
  destruct i; simpl;
    unfold signInWithEmail, signUpWithEmail, signOut, signInWithOAuth,
      resetPassword, updatePassword, bind, call_createClient, await_auth,
      window_location_origin, ret; simpl;
    destruct (createClient (world s)) as [[c | e] w1]; simpl;
    try reflexivity;
    try (destruct (window (globalThis s)) as [w |]; simpl; try reflexivity);
    match goal with
    | |- context [auth ?c ?m ?a ?w] =>
        destruct (auth c m a w) as [[r | e] w2]
    end; simpl; now rewrite ?record_record.
Qed.

(** C1, as amended. Where [createClient] returns a client and the request
    can be built (for [signInWithOAuth] and [resetPassword]: where [window]
    is declared), a wrapper calls its SDK method exactly once, with the
    arguments [forwarded_args] builds from the caller's, and hands back a
    new object with the [data] and [error] properties of the SDK's result
    (for [signOut]: [error] alone), or rethrows the SDK's rejection. That
    object equals the SDK's result when the result has just those
    properties. Nothing else happens: no check of the arguments, no second
    call, nothing kept between calls. *)
Theorem wrapper_forwards_to_its_sdk_method
  (i : invocation) (s : state World Client)
  (c : Client) (w1 w2 : World) (args : list value) (res : completion object)
  (Hclient : createClient (world s) = (Normal c, w1))
  (Hrequest : request (globalThis s) i = Normal args)
  (Hsdk : auth c (sdk_method i) args w1 = (res, w2)) :
  invoke createClient auth i s
  = (match res with
     | Normal r => Normal (reply i r)
     | Throw e => Throw e
     end,
     after s w2 [CreateClient; AuthCall c (sdk_method i) args])
  /\ (forall d e, is_signOut i = false ->
       reply i [("data", d); ("error", e)] = Obj [("data", d); ("error", e)])
  /\ (forall e, reply call_signOut [("error", e)] = Obj [("error", e)]).
Proof.
  split; [| split].
  - rewrite invoke_described. unfold described.
    rewrite Hclient, Hrequest, Hsdk. now destruct res.
  - intros d e Hi. destruct i; try discriminate; reflexivity.
  - reflexivity.
Qed.

(** C2. Whatever the SDK call produces, the wrapper surfaces its error
    unchanged: when the call resolves to [r], the wrapper returns an object
    whose [error] is [r.error]; when the call rejects with [e], the wrapper
    throws [e]. *)
Theorem sdk_error_surfaced_unchanged
  (i : invocation) (s : state World Client)
  (c : Client) (w1 w2 : World) (args : list value) (res : completion object)
  (Hclient : createClient (world s) = (Normal c, w1))
  (Hrequest : request (globalThis s) i = Normal args)
  (Hsdk : auth c (sdk_method i) args w1 = (res, w2)) :
  match res with
  | Normal r =>
      exists o, fst (invoke createClient auth i s) = Normal (Obj o)
                /\ prop o "error" = prop r "error"
  | Throw e => fst (invoke createClient auth i s) = Throw e
  end.
Proof.
  rewrite invoke_described. unfold described.
  rewrite Hclient, Hrequest, Hsdk.
  destruct res as [r | e]; [| reflexivity].
  destruct i; simpl; eexists; split; reflexivity.
Qed.

(** C4. One call of a wrapper adds at most one SDK call to the trace, and
    rendering [Home] adds nothing to it. Both are total: they end, with a
    value or a thrown error, in every state. *)
Theorem one_network_call_at_most (i : invocation) (s : state World Client) :
  (exists t, trace (snd (invoke createClient auth i s)) = (trace s ++ t)%list
             /\ network_calls t <= 1)
  /\ trace (snd (Page.Home s)) = trace s.
Proof.
  split; [| reflexivity].
  rewrite invoke_described. unfold described.
  destruct (createClient (world s)) as [[c | e] w1].
  - destruct (request (globalThis s) i) as [args | e].
    + destruct (auth c (sdk_method i) args w1) as [[r | e] w2];
        eexists; (split; [reflexivity | unfold network_calls; simpl; lia]).
    + eexists; split; [reflexivity | unfold network_calls; simpl; lia].
  - eexists; split; [reflexivity | unfold network_calls; simpl; lia].
Qed.

(** C9. When the SDK call resolves to [r], [signOut] returns an object with
    the one property [error], so whatever [r.data] was is dropped; each of
    the other five returns the two properties [data] and [error], both as
    they are in [r]. *)
Theorem signOut_returns_error_only
  (i : invocation) (s : state World Client)
  (c : Client) (w1 w2 : World) (args : list value) (r : object)
  (Hclient : createClient (world s) = (Normal c, w1))
  (Hrequest : request (globalThis s) i = Normal args)
  (Hsdk : auth c (sdk_method i) args w1 = (Normal r, w2)) :
  exists o,
    fst (invoke createClient auth i s) = Normal (Obj o)
    /\ keys o = (if is_signOut i then ["error"] else ["data"; "error"])
    /\ has_prop o "data" = negb (is_signOut i)
    /\ prop o "error" = prop r "error"
    /\ (is_signOut i = false -> prop o "data" = prop r "data").
Proof.
  rewrite invoke_described. unfold described.
  rewrite Hclient, Hrequest, Hsdk.
  destruct i; simpl; eexists; repeat split.
  discriminate.
Qed.

(** C10. [provider] has the three values google, github and discord. In a
    browser, [signInWithOAuth] hands the SDK the provider together with
    [options.redirectTo], and [resetPassword] the email followed by an
    options object with [redirectTo]; both are made from
    [window.location.origin], which the caller did not pass. Where [window]
    is not declared, both throw a [ReferenceError] before any SDK call. *)
Theorem oauth_and_reset_add_redirectTo
  (s : state World Client) (c : Client) (w1 : World)
  (Hclient : createClient (world s) = (Normal c, w1)) :
  (forall p, p = google \/ p = github \/ p = discord)
  /\ (forall p, In (provider_name p) ["google"; "github"; "discord"])
  /\ match window (globalThis s) with
     | Some w =>
         (forall p,
            trace (snd (signInWithOAuth createClient auth p s))
            = (trace s
               ++ [CreateClient;
                   AuthCall c sdk.signInWithOAuth
                     [Obj [("provider", Str (provider_name p));
                           ("options",
                            Obj [("redirectTo",
                                  Str (origin (location w)
                                       ++ "/auth/callback"))])]]])%list)
         /\ (forall email,
               trace (snd (resetPassword createClient auth email s))
               = (trace s
                  ++ [CreateClient;
                      AuthCall c sdk.resetPasswordForEmail
                        (caller_args (call_resetPassword email)
                         ++ [Obj [("redirectTo",
                                   Str (origin (location w)
                                        ++ "/auth/reset-password"))]])])%list)
     | None =>
         (forall p,
            signInWithOAuth createClient auth p s
            = (Throw (ReferenceError "window"), after s w1 [CreateClient]))
         /\ (forall email,
               resetPassword createClient auth email s
               = (Throw (ReferenceError "window"), after s w1 [CreateClient]))
     end.
Proof.
  split; [intros []; auto | split; [intros []; simpl; auto |]].
  pose proof (fun p => invoke_described (call_signInWithOAuth p) s) as HO.
  pose proof (fun e => invoke_described (call_resetPassword e) s) as HR.
  unfold described, request in HO, HR. simpl in HO, HR.
  rewrite Hclient in HO, HR.
  destruct (window (globalThis s)) as [w |]; simpl in HO, HR.
  - split; [intros p; rewrite HO | intros e; rewrite HR];
      match goal with
      | |- context [auth ?c ?m ?a ?w] => destruct (auth c m a w) as [[? | ?] ?]
      end; reflexivity.
  - split; [intros p; apply HO | intros e; apply HR].
Qed.

(** *** Further properties of the wrappers *)

(** X1. When [createClient] throws, every wrapper throws the same value at
    once: the SDK is not called, and [signInWithOAuth] and [resetPassword]
    do not get as far as reading [window]. *)
Theorem createClient_failure_propagates
  (i : invocation) (s : state World Client) (e : value) (w1 : World)
  (Hclient : createClient (world s) = (Throw e, w1)) :
  invoke createClient auth i s = (Throw e, after s w1 [CreateClient])
  /\ network_calls (trace (snd (invoke createClient auth i s)))
     = network_calls (trace s).
Proof.
  rewrite invoke_described. unfold described. rewrite Hclient. simpl.
  split; [reflexivity |].
  unfold network_calls. rewrite filter_app, length_app. simpl. lia.
Qed.

(** One call, counted. *)
Lemma invoke_counts (i : invocation) (s : state World Client) :
  globalThis (snd (invoke createClient auth i s)) = globalThis s
  /\ exists t,
       trace (snd (invoke createClient auth i s)) = (trace s ++ t)%list
       /\ client_requests t = 1
       /\ network_calls t <= 1
       /\ (window (globalThis s) <> None ->
           (exists c w, createClient (world s) = (Normal c, w)) ->
           network_calls t = 1).
Proof.
  assert (Hcount : forall (c : Client) m a,
             client_requests [CreateClient; AuthCall c m a] = 1
             /\ network_calls [CreateClient; AuthCall c m a] <= 1
             /\ network_calls [CreateClient; AuthCall c m a] = 1).
  { intros. unfold client_requests, network_calls. simpl. lia. }
  assert (Hnone : client_requests [@CreateClient Client] = 1
                  /\ network_calls [@CreateClient Client] <= 1).
  { unfold client_requests, network_calls. simpl. lia. }
  rewrite invoke_described. unfold described, request.
  destruct (createClient (world s)) as [[c | e] w1].
  - destruct (window (globalThis s)) as [w |].
    + destruct (auth c (sdk_method i) _ w1) as [[r | e] w2];
        (split; [reflexivity |]); eexists; (split; [reflexivity |]);
        destruct (Hcount c (sdk_method i)
                    (forwarded_args (origin (location w)) i))
          as (H1 & H2 & H3); auto.
    + destruct (reads_window i).
      * (split; [reflexivity |]); eexists; (split; [reflexivity |]).
        destruct Hnone as [H1 H2].
        split; [exact H1 | split; [exact H2 |]].
        intros H; now destruct H.
      * destruct (auth c (sdk_method i) _ w1) as [[r | e] w2];
          (split; [reflexivity |]); eexists; (split; [reflexivity |]);
          destruct (Hcount c (sdk_method i) (forwarded_args EmptyString i))
            as (H1 & H2 & H3); auto.
  - (split; [reflexivity |]); eexists; (split; [reflexivity |]).
    destruct Hnone as [H1 H2].
    split; [exact H1 | split; [exact H2 |]].
    intros _ (c & w & H). discriminate H.
Qed.

(** X2. A session of [n] wrapper calls asks [createClient] for a client [n]
    times, once per call and whatever the calls returned, and makes at most
    [n] SDK calls; the globals are never written. *)
Theorem session_makes_a_client_per_call
  (calls : list invocation) (s : state World Client) :
  globalThis (invoke_all createClient auth calls s) = globalThis s
  /\ exists t,
       trace (invoke_all createClient auth calls s) = (trace s ++ t)%list
       /\ client_requests t = length calls
       /\ network_calls t <= length calls.
Proof.
  revert s. induction calls as [| i rest IH]; intros s; simpl.
  - split; [reflexivity |]. exists []. rewrite app_nil_r. now repeat split.
  - destruct (invoke_counts i s) as (Hg & t1 & Ht1 & Hc1 & Hn1 & _).
    destruct (IH (snd (invoke createClient auth i s)))
      as (Hg' & t2 & Ht2 & Hc2 & Hn2).
    split; [now rewrite Hg' |].
    exists (t1 ++ t2)%list. split; [now rewrite Ht2, Ht1, app_assoc |].
    unfold client_requests, network_calls in *.
    rewrite !filter_app, !length_app. lia.
Qed.

(** X3. In a browser, with a factory that never throws, every wrapper call
    reaches the SDK: a session of [n] calls makes exactly [n] SDK calls,
    also when calls repeat or when the SDK rejects some of them. Nothing is
    answered from a cache and nothing is skipped. *)
Theorem every_call_reaches_the_sdk
  (calls : list invocation) (s : state World Client)
  (Hwindow : window (globalThis s) <> None)
  (Hfactory : forall w, exists c w', createClient w = (Normal c, w')) :
  exists t,
    trace (invoke_all createClient auth calls s) = (trace s ++ t)%list
    /\ network_calls t = length calls.
Proof.
  revert s Hwindow. induction calls as [| i rest IH]; intros s Hwindow; simpl.
  - exists []. rewrite app_nil_r. now split.
  - destruct (invoke_counts i s) as (Hg & t1 & Ht1 & _ & _ & Hn1).
    specialize (Hn1 Hwindow (Hfactory (world s))).
    destruct (IH (snd (invoke createClient auth i s))) as (t2 & Ht2 & Hn2);
      [now rewrite Hg |].
    exists (t1 ++ t2)%list. split; [now rewrite Ht2, Ht1, app_assoc |].
    unfold network_calls in *. rewrite filter_app, length_app. lia.
Qed.

End AuthFacts.

(** *** Concrete runs against the local backend *)

(** The three hypotheses of the theorems on [invoke] hold on the local
    backend for a sign-in from a browser, and the sign-in with the right
    password comes back as the SDK answered it. *)
Lemma wrapper_forwards_to_its_sdk_method_witness :
  Fixture.createClient (Auth.world Fixture.in_browser)
  = (JS.Normal "http://127.0.0.1:54321", Fixture.service)
  /\ Auth.request (Auth.globalThis Fixture.in_browser) Fixture.sign_in
     = JS.Normal (Auth.forwarded_args "http://localhost:3000" Fixture.sign_in)
  /\ Auth.invoke Fixture.createClient Fixture.auth Fixture.sign_in
       Fixture.in_browser
     = (JS.Normal
          (JS.Obj [("data", JS.Obj [("user", JS.Str "ada@example.com")]);
                   ("error", JS.Null)]),
        Auth.after Fixture.in_browser (Fixture.serve Fixture.service)
          [Auth.CreateClient;
           Auth.AuthCall "http://127.0.0.1:54321" Auth.sdk.signInWithPassword
             [JS.Obj [("email", JS.Str "ada@example.com");
                      ("password", JS.Str "s3cret")]]]).
Proof.
  split; [reflexivity | split; [reflexivity |]].
  exact (proj1
           (wrapper_forwards_to_its_sdk_method _ _
              Fixture.createClient Fixture.auth Fixture.sign_in
              Fixture.in_browser
              "http://127.0.0.1:54321" Fixture.service
              (Fixture.serve Fixture.service)
              (Auth.forwarded_args "http://localhost:3000" Fixture.sign_in)
              (JS.Normal
                 [("data", JS.Obj [("user", JS.Str "ada@example.com")]);
                  ("error", JS.Null)])
              eq_refl eq_refl eq_refl)).
Defined.

(** C1, as the documentation has it, fails on [resetPassword]: called with
    the one argument ["ada@example.com"] in a browser at
    [http://localhost:3000], it hands the SDK two arguments, the second an
    options object the caller never wrote. *)
Lemma resetPassword_is_not_plain_delegation :
  Auth.received
    (Auth.trace
       (snd (Auth.invoke Fixture.createClient Fixture.auth
               (Auth.call_resetPassword "ada@example.com")
               Fixture.in_browser)))
  = [[JS.Str "ada@example.com";
      JS.Obj [("redirectTo",
               JS.Str "http://localhost:3000/auth/reset-password")]]]
  /\ Auth.received
       (Auth.trace
          (snd (Auth.invoke Fixture.createClient Fixture.auth
                  (Auth.call_resetPassword "ada@example.com")
                  Fixture.in_browser)))
     <> [Auth.caller_args (Auth.call_resetPassword "ada@example.com")].
Proof.
  split; [reflexivity | intros H; vm_compute in H; discriminate H].
Qed.

(** A wrong password: the SDK resolves with an [AuthApiError] in [error],
    and that very object is what the wrapper returns as [error]. *)
Lemma sdk_error_surfaced_unchanged_witness :
  exists o,
    fst (Auth.invoke Fixture.createClient Fixture.auth
           (Auth.call_signInWithEmail "ada@example.com" "guess")
           Fixture.in_browser)
    = JS.Normal (JS.Obj o)
    /\ JS.prop o "error" = Fixture.invalid_credentials.
Proof.
  exact (sdk_error_surfaced_unchanged _ _
           Fixture.createClient Fixture.auth
           (Auth.call_signInWithEmail "ada@example.com" "guess")
           Fixture.in_browser
           "http://127.0.0.1:54321" Fixture.service
           (Fixture.serve Fixture.service)
           [JS.Obj [("email", JS.Str "ada@example.com");
                    ("password", JS.Str "guess")]]
           (JS.Normal [("data", JS.Obj [("user", JS.Null)]);
                       ("error", Fixture.invalid_credentials)])
           eq_refl eq_refl eq_refl).
Defined.

(** Signing out on the local backend. *)
Lemma signOut_returns_error_only_witness :
  exists o,
    fst (Auth.invoke Fixture.createClient Fixture.auth Auth.call_signOut
           Fixture.on_server)
    = JS.Normal (JS.Obj o)
    /\ JS.keys o = ["error"]
    /\ JS.has_prop o "data" = false
    /\ JS.prop o "error" = JS.Null.
Proof.
  destruct (signOut_returns_error_only _ _
              Fixture.createClient Fixture.auth Auth.call_signOut
              Fixture.on_server
              "http://127.0.0.1:54321" Fixture.service
              (Fixture.serve Fixture.service) []
              [("error", JS.Null)]
              eq_refl eq_refl eq_refl)
    as (o & Hret & Hkeys & Hdata & Herror & _).
  exists o. repeat split; assumption.
Defined.

(** On a server, where [window] is not declared, both wrappers throw. *)
Lemma oauth_and_reset_add_redirectTo_witness :
  Auth.signInWithOAuth Fixture.createClient Fixture.auth Auth.github
    Fixture.on_server
  = (JS.Throw (JS.ReferenceError "window"),
     Auth.after Fixture.on_server Fixture.service [Auth.CreateClient])
  /\ Auth.resetPassword Fixture.createClient Fixture.auth "ada@example.com"
       Fixture.on_server
     = (JS.Throw (JS.ReferenceError "window"),
        Auth.after Fixture.on_server Fixture.service [Auth.CreateClient]).
Proof.
  destruct (proj2 (proj2
              (oauth_and_reset_add_redirectTo _ _
                 Fixture.createClient Fixture.auth Fixture.on_server
                 "http://127.0.0.1:54321" Fixture.service eq_refl)))
    as [HO HR].
  split; [apply HO | apply HR].
Defined.

(** A factory without its project URL: the sign-in throws the factory's
    error and the SDK is not called. *)
Lemma createClient_failure_propagates_witness :
  Auth.invoke Fixture.createClient_unconfigured Fixture.auth Fixture.sign_in
    Fixture.in_browser
  = (JS.Throw Fixture.missing_url,
     Auth.after Fixture.in_browser Fixture.service [Auth.CreateClient])
  /\ Auth.network_calls
       (Auth.trace
          (snd (Auth.invoke Fixture.createClient_unconfigured Fixture.auth
                  Fixture.sign_in Fixture.in_browser)))
     = Auth.network_calls (Auth.trace Fixture.in_browser).
Proof.
  exact (createClient_failure_propagates _ _
           Fixture.createClient_unconfigured Fixture.auth Fixture.sign_in
           Fixture.in_browser Fixture.missing_url Fixture.service eq_refl).
Defined.

(** Three calls in a browser: three SDK calls. *)
Lemma every_call_reaches_the_sdk_witness :
  exists t,
    Auth.trace
      (Auth.invoke_all Fixture.createClient Fixture.auth Fixture.session
         Fixture.in_browser)
    = (Auth.trace Fixture.in_browser ++ t)%list
    /\ Auth.network_calls t = 3.
Proof.
  refine (every_call_reaches_the_sdk _ _
            Fixture.createClient Fixture.auth Fixture.session
            Fixture.in_browser _ _).
  - simpl. discriminate.
  - intros w. exists "http://127.0.0.1:54321", w. reflexivity.
Defined.

(* ===================================================================== *)
(** * Properties of the home page *)
(* ===================================================================== *)

(** C5. [Home] takes no argument and returns the same tree in every state,
    leaving the state as it was; the tree has two links, to [/login] and to
    [https://github.com], in that order. *)
Theorem Home_is_static (S S' : Type) (s : S) (s' : S') :
  Page.Home s = (JS.Normal Page.Home_tree, s)
  /\ fst (Page.Home s) = fst (Page.Home s')
  /\ Page.hrefs Page.Home_tree = ["/login"; "https://github.com"]
  /\ length (Page.hrefs Page.Home_tree) = 2.
Proof.
  repeat split.
Qed.

(* ===================================================================== *)
(** * The client of a wrapper call *)
(* ===================================================================== *)

Section ClientFacts.
Import JS Auth.

Variable World : Type.
Variable Client : Type.
Variable createClient : World -> completion Client * World.
Variable auth :
  Client -> sdk.method -> list value -> World -> completion object * World.



End ClientFacts.



(* ===================================================================== *)
(** * Properties of the set-up script *)
(* ===================================================================== *)

(** *** Substrings: what the existence check looks for *)

Lemma prefix_app (p rest : string) : String.prefix p (p ++ rest) = true.
Proof.
  induction p as [| a p IH]; simpl; [now destruct rest |].
  destruct (ascii_dec a a) as [_ | Hne]; [exact IH | now destruct Hne].
Qed.

Lemma prefix_split (p s : string) :
  String.prefix p s = true -> exists rest, s = p ++ rest.
Proof.
  revert s. induction p as [| a p IH]; intros s H.
  - now exists s.
  - destruct s as [| b s]; simpl in H; [discriminate H |].
    destruct (ascii_dec a b) as [-> | _]; [| discriminate H].
    destruct (IH s H) as [rest ->]. now exists rest.
Qed.

Lemma contains_step (pattern s : string) :
  Bootstrap.contains pattern s
  = if String.prefix pattern s then true
    else match s with
         | EmptyString => false
         | String _ s' => Bootstrap.contains pattern s'
         end.
Proof. destruct s; reflexivity. Qed.

Lemma contains_substring (pattern s : string) :
  Bootstrap.contains pattern s = true <-> Bootstrap.has_substring pattern s.
Proof.
  unfold Bootstrap.has_substring. split.
  - induction s as [| a s IH]; rewrite contains_step;
      destruct (String.prefix pattern _) eqn:E; intros H;
      try (destruct (prefix_split _ _ E) as [rest Hrest];
           now exists EmptyString, rest).
    + discriminate H.
    + destruct (IH H) as (before & rest & ->).
      now exists (String a before), rest.
  - intros (before & rest & ->).
    induction before as [| a before IH]; cbn [append];
      rewrite contains_step.
    + now rewrite prefix_app.
    + now destruct (String.prefix pattern _).
Qed.

Section BootstrapFacts.
Import Bootstrap.

Variable Host : Type.
Variable exec : command -> Host -> (Z * list string) * Host.

(** One step of the script on a symbolic machine: name the result of the
    next command, then split on the status tested. *)
Ltac shell_step :=
  match goal with
  | |- context [exec ?c ?h] =>
      let E := fresh "E" in
      destruct (exec c h) as [[? ?] ?] eqn:E; simpl
  | |- context [(?z =? 0)%Z] =>
      let N := fresh "N" in
      destruct (Z.eqb_spec z 0) as [N | N]; simpl
  end.

Ltac shell_run :=
  unfold execute, script, errexit, pipe_grep_q, run, echo_all, echo, exit,
    bind, ret; simpl;
  repeat shell_step.





(** *** Further properties of the script *)

Lemma grep_q_none (name : string) (out : list string) :
  (forall row, In row out -> contains name row = false) ->
  grep_q name out = 1%Z.
Proof.
  intros H. unfold grep_q.
  destruct (existsb (contains name) out) eqn:E; [| reflexivity].
  apply existsb_exists in E. destruct E as (row & Hin & Hrow).
  rewrite (H row Hin) in Hrow. discriminate Hrow.
Qed.

(** Runs the script symbolically and leaves, in each branch, the log as a
    list of known events. *)
Ltac shell_cases :=
  let Hrun := fresh "Hrun" in
  match goal with
  | |- context [execute exec ?h] =>
      destruct (execute exec h) as [? [? ?]] eqn:Hrun;
      revert Hrun; shell_run;
      intros Hrun; injection Hrun as <- <- <-; simpl; subst
  end.

Ltac pick_prefix k :=
  first [ exists k; split; [lia | left; reflexivity]
        | exists k; split; [lia | right; reflexivity] ].

(** X5. The external commands of an execution are an initial part of one of
    two fixed lists: [command -v], [docker ps -a], ([docker stop], [docker
    rm],) [mkdir -p], [docker run], [sleep], [docker ps]. So no command runs
    twice, none runs out of order, and nothing runs after the last check. *)
Theorem commands_run_in_script_order (h : Host) :
  exists n,
    1 <= n
    /\ (commands (log (snd (execute exec h))) = firstn n with_cleanup
        \/ commands (log (snd (execute exec h))) = firstn n without_cleanup).
Proof.
  shell_cases.
  all: first [ pick_prefix 1 | pick_prefix 2 | pick_prefix 3 | pick_prefix 4
             | pick_prefix 5 | pick_prefix 6 | pick_prefix 7 | pick_prefix 8 ].
Qed.

(** X6. An execution that ends with status 0 ran one of the two full lists
    of commands, and each of its simple commands ([docker stop], [docker
    rm], [mkdir], [docker run], [sleep]) ended with status 0. *)
Theorem success_means_every_step_succeeded (h : Host)
  (Hok : fst (execute exec h) = 0%Z) :
  (commands (log (snd (execute exec h))) = with_cleanup
   \/ commands (log (snd (execute exec h))) = without_cleanup)
  /\ Forall ran_cleanly (log (snd (execute exec h))).
Proof.
  revert Hok. shell_cases.
  all: intros Hok; try discriminate Hok; try contradiction.
  all: split; [first [left; reflexivity | right; reflexivity] |].
  all: repeat constructor; simpl; intros; first [reflexivity | discriminate].
Qed.

(** X7. When Docker is installed and no line of [docker ps -a] has the word
    [pocketbase] in it, the script goes straight on to [mkdir -p]: neither
    [docker stop] nor [docker rm] runs, for any name. *)
Theorem no_cleanup_when_not_listed (h : Host)
  (Hdocker : fst (fst (exec (command_v "docker") h)) = 0%Z)
  (Hnone : forall row,
      In row (snd (fst (exec (docker_ps true)
                          (snd (exec (command_v "docker") h))))) ->
      contains CONTAINER_NAME row = false) :
  (exists n, 3 <= n
             /\ commands (log (snd (execute exec h)))
                = firstn n without_cleanup)
  /\ (forall name,
        ~ In (docker_stop name) (commands (log (snd (execute exec h))))
        /\ ~ In (docker_rm name) (commands (log (snd (execute exec h))))).
Proof.
  destruct (exec (command_v "docker") h) as [[z0 o0] h0] eqn:E0.
  simpl in Hdocker, Hnone. subst z0.
  destruct (exec (docker_ps true) h0) as [[z1 o1] h1] eqn:E1.
  simpl in Hnone. apply grep_q_none in Hnone.
  destruct (execute exec h) as [status [h' l]] eqn:Hrun.
  revert Hrun.
  unfold execute, script, errexit, pipe_grep_q, run, echo_all, echo, exit,
    bind, ret; simpl.
  rewrite E0; simpl. rewrite E1; simpl. rewrite Hnone; simpl.
  repeat shell_step.
  all: intros Hrun; injection Hrun as <- <- <-; simpl.
  all: split;
    [ first [ exists 3; split; [lia | reflexivity]
            | exists 4; split; [lia | reflexivity]
            | exists 5; split; [lia | reflexivity]
            | exists 6; split; [lia | reflexivity] ]
    | intros name; split; intros H;
      repeat (destruct H as [H | H]; [discriminate H |]); exact H ].
Qed.

(** X8. When [command -v docker] fails, the script ends with status 1
    having run no other command: no directory is made and Docker is never
    called, and the machine is as [command -v] left it. *)
Theorem missing_docker_touches_nothing (h : Host)
  (Hmissing : fst (fst (exec (command_v "docker") h)) <> 0%Z) :
  fst (execute exec h) = 1%Z
  /\ commands (log (snd (execute exec h))) = [command_v "docker"]
  /\ host (snd (execute exec h)) = snd (exec (command_v "docker") h).
Proof.
  unfold execute, script, errexit, pipe_grep_q, run, echo_all, echo, exit,
    bind, ret; simpl.
  destruct (exec (command_v "docker") h) as [[z0 o0] h0] eqn:E0.
  simpl in Hmissing |- *.
  destruct (Z.eqb_spec z0 0) as [N | N]; [contradiction |].
  simpl. repeat split.
Qed.

(** Walks a log of known events against [pre ++ Exec c st :: post] for an
    unknown command: at each place, either the event there is no failed
    simple command, or it is the last one. *)
Ltac find_failure H :=
  match type of H with
  | [] = (?pre ++ _ :: _)%list => destruct pre; discriminate H
  | _ :: _ = (?pre ++ _ :: _)%list =>
      destruct pre; cbn [app] in H;
      [ first [ discriminate H
              | injection H; clear H; intros; subst;
                first [ discriminate | contradiction
                      | split; reflexivity ] ]
      | injection H as ? H; subst; find_failure H ]
  end.

(** X9. [set -e]: a simple command that ends with a nonzero status is the
    last thing the script does, and its status is the script's. Nothing is
    echoed and nothing is run after it. *)
Theorem errexit_stops_at_first_failure (h : Host)
  (pre post : list event) (c : command) (st : Z)
  (Hlog : log (snd (execute exec h)) = (pre ++ Exec c st :: post)%list)
  (Hsimple : under_errexit c = true)
  (Hfailed : st <> 0%Z) :
  post = [] /\ fst (execute exec h) = st.
Proof.
  revert Hlog. shell_cases.
  all: intros Hlog; find_failure Hlog.
Qed.

(** X10. With Docker installed, the script takes the clean-up branch (and
    runs [docker stop pocketbase]) exactly when some line printed by
    [docker ps -a] has the word [pocketbase] somewhere in it: as the name of
    a container, inside a longer name, or in another column such as the
    image. *)
Theorem cleanup_runs_iff_a_line_mentions_the_name (h : Host)
  (Hdocker : fst (fst (exec (command_v "docker") h)) = 0%Z) :
  In (docker_stop CONTAINER_NAME) (commands (log (snd (execute exec h))))
  <-> exists row,
        In row (snd (fst (exec (docker_ps true)
                            (snd (exec (command_v "docker") h)))))
        /\ has_substring CONTAINER_NAME row.
Proof.
  destruct (exec (command_v "docker") h) as [[z0 o0] h0] eqn:E0.
  simpl in Hdocker |- *. subst z0.
  destruct (exec (docker_ps true) h0) as [[z1 o1] h1] eqn:E1. simpl.
  assert (Hrows : (exists row, In row o1 /\ has_substring CONTAINER_NAME row)
                  <-> existsb (contains CONTAINER_NAME) o1 = true).
  { rewrite existsb_exists. split; intros (row & Hin & Hrow); exists row;
      (split; [exact Hin | now apply contains_substring]). }
  rewrite Hrows. clear Hrows.
  destruct (execute exec h) as [status [h' l]] eqn:Hrun.
  revert Hrun.
  unfold execute, script, errexit, pipe_grep_q, run, echo_all, echo, exit,
    bind, ret, grep_q; simpl.
  rewrite E0; simpl. rewrite E1; simpl.
  destruct (existsb (contains CONTAINER_NAME) o1); simpl.
  - repeat shell_step.
    all: intros Hrun; injection Hrun as <- <- <-; simpl.
    all: split; [reflexivity | intros _; auto 10].
  - repeat shell_step.
    all: intros Hrun; injection Hrun as <- <- <-; simpl.
    all: split; [| discriminate].
    all: intros H; repeat (destruct H as [H | H]; [discriminate H |]);
      contradiction.
Qed.

End BootstrapFacts.

(** *** Concrete runs on the Docker host *)



(** A fresh machine: the script succeeds, and ran the list without the
    clean-up. *)
Lemma success_means_every_step_succeeded_witness :
  fst (Bootstrap.execute Bootstrap.Sim.exec Bootstrap.Sim.fresh) = 0%Z
  /\ (Bootstrap.commands
        (Bootstrap.log
           (snd (Bootstrap.execute Bootstrap.Sim.exec Bootstrap.Sim.fresh)))
      = Bootstrap.with_cleanup
      \/ Bootstrap.commands
           (Bootstrap.log
              (snd (Bootstrap.execute Bootstrap.Sim.exec
                      Bootstrap.Sim.fresh)))
         = Bootstrap.without_cleanup).
Proof.
  split; [reflexivity |].
  exact (proj1
           (success_means_every_step_succeeded _
              Bootstrap.Sim.exec Bootstrap.Sim.fresh eq_refl)).
Defined.

(** A fresh machine lists no container: only the header line. *)
Lemma no_cleanup_when_not_listed_witness :
  fst (fst (Bootstrap.Sim.exec (Bootstrap.command_v "docker")
              Bootstrap.Sim.fresh)) = 0%Z
  /\ exists n,
       3 <= n
       /\ Bootstrap.commands
            (Bootstrap.log
               (snd (Bootstrap.execute Bootstrap.Sim.exec
                       Bootstrap.Sim.fresh)))
          = firstn n Bootstrap.without_cleanup.
Proof.
  split; [reflexivity |].
  refine (proj1
            (no_cleanup_when_not_listed _
               Bootstrap.Sim.exec Bootstrap.Sim.fresh eq_refl _)).
  intros row [<- | []]. reflexivity.
Defined.

(** A machine without Docker. *)
Lemma missing_docker_touches_nothing_witness :
  fst (Bootstrap.execute Bootstrap.Sim.exec Bootstrap.Sim.no_docker) = 1%Z
  /\ Bootstrap.commands
       (Bootstrap.log
          (snd (Bootstrap.execute Bootstrap.Sim.exec
                  Bootstrap.Sim.no_docker)))
     = [Bootstrap.command_v "docker"]
  /\ Bootstrap.host
       (snd (Bootstrap.execute Bootstrap.Sim.exec Bootstrap.Sim.no_docker))
     = Bootstrap.Sim.no_docker.
Proof.
  refine (missing_docker_touches_nothing _
            Bootstrap.Sim.exec Bootstrap.Sim.no_docker _).
  simpl. lia.
Defined.

(** The container started under another name: [docker stop pocketbase] is
    the sixth event of the log, fails with status 1, and is the last. *)
Lemma errexit_stops_at_first_failure_witness :
  Bootstrap.log
    (snd (Bootstrap.execute Bootstrap.Sim.exec Bootstrap.Sim.renamed))
  = (firstn 5
       (Bootstrap.log
          (snd (Bootstrap.execute Bootstrap.Sim.exec Bootstrap.Sim.renamed)))
     ++ [Bootstrap.Exec (Bootstrap.docker_stop "pocketbase") 1%Z])%list
  /\ fst (Bootstrap.execute Bootstrap.Sim.exec Bootstrap.Sim.renamed) = 1%Z.
Proof.
  split; [reflexivity |].
  refine (proj2
            (errexit_stops_at_first_failure _
               Bootstrap.Sim.exec Bootstrap.Sim.renamed
               (firstn 5
                  (Bootstrap.log
                     (snd (Bootstrap.execute Bootstrap.Sim.exec
                             Bootstrap.Sim.renamed))))
               [] (Bootstrap.docker_stop "pocketbase") 1%Z
               eq_refl eq_refl _)).
  lia.
Defined.

(** The container started under another name: the image column has the
    word, and [docker stop pocketbase] is run. *)
Lemma cleanup_runs_iff_a_line_mentions_the_name_witness :
  fst (fst (Bootstrap.Sim.exec (Bootstrap.command_v "docker")
              Bootstrap.Sim.renamed)) = 0%Z
  /\ In (Bootstrap.docker_stop Bootstrap.CONTAINER_NAME)
       (Bootstrap.commands
          (Bootstrap.log
             (snd (Bootstrap.execute Bootstrap.Sim.exec
                     Bootstrap.Sim.renamed)))).
Proof.
  split; [reflexivity |].
  apply (proj2
           (cleanup_runs_iff_a_line_mentions_the_name _
              Bootstrap.Sim.exec Bootstrap.Sim.renamed eq_refl)).
  exists (Bootstrap.Sim.row
            {| Bootstrap.Sim.name := "pb";
               Bootstrap.Sim.image := "ghcr.io/pocketbase/pocketbase:latest";
               Bootstrap.Sim.running := true |}).
  split; [right; left; reflexivity |].
  exists "0f3c9a1b7d2e   ghcr.io/",
    "/pocketbase:latest   /usr/local/bin/pocke...   Up 2 hours   pb".
  reflexivity.
Defined.

